(** * Traffic-light controller (main.cpp): shallow embedding and properties

    The sketch keeps its whole state in global variables and drives four
    LED pins.  The embedding is a record of those globals plus the pin
    latches; every function of the sketch is a state transformer that takes
    the values read from the environment ([micros()], [millis()],
    [digitalRead]) as explicit arguments. *)

From Stdlib Require Import ZArith Bool List Lia.
Import ListNotations.
Local Open Scope Z_scope.

(** ** Machine arithmetic *)

Module Word.

(** [unsigned long] on the target is 32 bits wide. *)
Definition modulus : Z := 2 ^ 32.

Definition wrap (x : Z) : Z := x mod modulus.

(** Unsigned subtraction, division and remainder as C++ computes them. *)
Definition sub (a b : Z) : Z := wrap (a - b).
Definition div (a b : Z) : Z := a / b.
Definition rem (a b : Z) : Z := a mod b.

(** Conversion of an [unsigned long] to the 16-bit [int] of the target. *)
Definition to_int (x : Z) : Z := (x + 2 ^ 15) mod 2 ^ 16 - 2 ^ 15.

Definition in_range (x : Z) : Prop := 0 <= x < modulus.

End Word.

(** ** Constants of the sketch *)

Definition LED_RED : Z := 5.
Definition LED_YELLOW : Z := 6.
Definition LED_GREEN : Z := 7.
Definition LED_BLINK : Z := 8.

Definition BUTTON_EMERGENCY : Z := 2.
Definition BUTTON_RESET : Z := 3.
Definition BUTTON_BLINKING : Z := 4.

Definition HIGH : Z := 1.
Definition LOW : Z := 0.

Definition INPUT : Z := 0.
Definition OUTPUT : Z := 1.
Definition INPUT_PULLUP : Z := 2.

Definition debounceDelayMicro : Z := 200000.
Definition blinkingDebounceDelay : Z := 50.
Definition cycleDuration : Z := 6000.

(** ** Program state: the globals and the pin latches *)

Record State : Type := mkState {
  emergencyMode : bool;
  systemOffMode : bool;
  blinkingMode : bool;
  lastEmergencyInterruptTime : Z;
  lastResetInterruptTime : Z;
  lastBlinkingDebounceTime : Z;
  lastBlinkingButtonState : Z;
  cycleStart : Z;
  pins : Z -> bool
}.

Definition set_emergencyMode (v : bool) (s : State) : State :=
  mkState v (systemOffMode s) (blinkingMode s)
          (lastEmergencyInterruptTime s) (lastResetInterruptTime s)
          (lastBlinkingDebounceTime s) (lastBlinkingButtonState s)
          (cycleStart s) (pins s).

Definition set_systemOffMode (v : bool) (s : State) : State :=
  mkState (emergencyMode s) v (blinkingMode s)
          (lastEmergencyInterruptTime s) (lastResetInterruptTime s)
          (lastBlinkingDebounceTime s) (lastBlinkingButtonState s)
          (cycleStart s) (pins s).

Definition set_blinkingMode (v : bool) (s : State) : State :=
  mkState (emergencyMode s) (systemOffMode s) v
          (lastEmergencyInterruptTime s) (lastResetInterruptTime s)
          (lastBlinkingDebounceTime s) (lastBlinkingButtonState s)
          (cycleStart s) (pins s).

Definition set_lastEmergencyInterruptTime (v : Z) (s : State) : State :=
  mkState (emergencyMode s) (systemOffMode s) (blinkingMode s)
          v (lastResetInterruptTime s)
          (lastBlinkingDebounceTime s) (lastBlinkingButtonState s)
          (cycleStart s) (pins s).

Definition set_lastResetInterruptTime (v : Z) (s : State) : State :=
  mkState (emergencyMode s) (systemOffMode s) (blinkingMode s)
          (lastEmergencyInterruptTime s) v
          (lastBlinkingDebounceTime s) (lastBlinkingButtonState s)
          (cycleStart s) (pins s).

Definition set_lastBlinkingDebounceTime (v : Z) (s : State) : State :=
  mkState (emergencyMode s) (systemOffMode s) (blinkingMode s)
          (lastEmergencyInterruptTime s) (lastResetInterruptTime s)
          v (lastBlinkingButtonState s)
          (cycleStart s) (pins s).

Definition set_lastBlinkingButtonState (v : Z) (s : State) : State :=
  mkState (emergencyMode s) (systemOffMode s) (blinkingMode s)
          (lastEmergencyInterruptTime s) (lastResetInterruptTime s)
          (lastBlinkingDebounceTime s) v
          (cycleStart s) (pins s).

Definition set_cycleStart (v : Z) (s : State) : State :=
  mkState (emergencyMode s) (systemOffMode s) (blinkingMode s)
          (lastEmergencyInterruptTime s) (lastResetInterruptTime s)
          (lastBlinkingDebounceTime s) (lastBlinkingButtonState s)
          v (pins s).

Definition set_pins (v : Z -> bool) (s : State) : State :=
  mkState (emergencyMode s) (systemOffMode s) (blinkingMode s)
          (lastEmergencyInterruptTime s) (lastResetInterruptTime s)
          (lastBlinkingDebounceTime s) (lastBlinkingButtonState s)
          (cycleStart s) v.

(** Statements run in sequence. *)
Definition then_ (f g : State -> State) : State -> State :=
  fun s => g (f s).

Declare Scope stmt_scope.
Delimit Scope stmt_scope with stmt.
Notation "f ;; g" := (then_ f g)
  (at level 61, right associativity) : stmt_scope.

Definition skip : State -> State := fun s => s.

(** [digitalWrite(pin, val)]: the latch of [pin] is cleared when [val] is
    [LOW] and set otherwise; every other latch keeps its level. *)
Definition digitalWrite (pin val : Z) (s : State) : State :=
  set_pins (fun q => if q =? pin then negb (val =? LOW) else pins s q) s.

(** [pinMode(pin, mode)] as the AVR core implements it, on the port
    latch: [INPUT] clears the latch of [pin], [INPUT_PULLUP] sets it (that
    is what switches the pull-up on), and [OUTPUT] leaves it as it is.
    The data-direction register, which the call also writes, is not part
    of the state: no function of the sketch reads it. *)
Definition pinMode (pin mode : Z) (s : State) : State :=
  if mode =? INPUT then
    set_pins (fun q => if q =? pin then false else pins s q) s
  else if mode =? INPUT_PULLUP then
    set_pins (fun q => if q =? pin then true else pins s q) s
  else s.

(** The globals as their initialisers leave them; all latches are low
    after reset. *)
Definition initial_state : State :=
  mkState false false false 0 0 0 HIGH 0 (fun _ => false).

(** ** Interrupt service routines *)

(** [current] is the value returned by [micros()]. *)
Definition emergencyISR (current : Z) (s : State) : State :=
  if Word.sub current (lastEmergencyInterruptTime s) >=? debounceDelayMicro
  then set_lastEmergencyInterruptTime current
         (set_emergencyMode (negb (emergencyMode s)) s)
  else s.

Definition resetISR (current : Z) (s : State) : State :=
  if Word.sub current (lastResetInterruptTime s) >=? debounceDelayMicro
  then set_lastResetInterruptTime current
         (set_systemOffMode (negb (systemOffMode s)) s)
  else s.

(** ** Polled button *)

(** [currentState] is the value of [digitalRead(BUTTON_BLINKING)] and
    [currentTime] the value of [millis()]. *)
Definition pollBlinkingButton (currentState currentTime : Z) (s : State)
  : State :=
  let s1 :=
    if (lastBlinkingButtonState s =? HIGH) && (currentState =? LOW) &&
       (Word.sub currentTime (lastBlinkingDebounceTime s)
          >? blinkingDebounceDelay)
    then set_lastBlinkingDebounceTime currentTime
           (set_blinkingMode (negb (blinkingMode s)) s)
    else s in
  set_lastBlinkingButtonState currentState s1.

(** ** setup() *)

(** [attachInterrupt] registers a handler and enables its interrupt; it
    touches neither the globals nor the port latches, and the handlers
    enter the model as events.  [now] is the value of [millis()]. *)
Definition setup (now : Z) : State -> State :=
  (pinMode LED_RED OUTPUT ;;
   pinMode LED_YELLOW OUTPUT ;;
   pinMode LED_GREEN OUTPUT ;;
   pinMode LED_BLINK OUTPUT ;;
   digitalWrite LED_RED LOW ;;
   digitalWrite LED_YELLOW LOW ;;
   digitalWrite LED_GREEN LOW ;;
   digitalWrite LED_BLINK LOW ;;
   pinMode BUTTON_EMERGENCY INPUT_PULLUP ;;
   pinMode BUTTON_RESET INPUT_PULLUP ;;
   pinMode BUTTON_BLINKING INPUT_PULLUP ;;
   set_cycleStart now)%stmt.

(** ** The resolver *)

Definition level (b : bool) : Z := if b then HIGH else LOW.

(** [millis_] is the value of [millis()], a 32-bit reading in
    [0, 2^32); each path through the function reads the clock at most
    once. *)
Definition updateTrafficLights (millis_ : Z) (s : State) : State :=
  if systemOffMode s then
    (digitalWrite LED_RED LOW ;;
     digitalWrite LED_YELLOW LOW ;;
     digitalWrite LED_GREEN LOW ;;
     digitalWrite LED_BLINK LOW)%stmt s
  else if emergencyMode s then
    (digitalWrite LED_RED HIGH ;;
     digitalWrite LED_YELLOW LOW ;;
     digitalWrite LED_GREEN LOW ;;
     digitalWrite LED_BLINK LOW)%stmt s
  else if blinkingMode s then
    let blinkState := Word.rem (Word.div millis_ 500) 2 =? 0 in
    (digitalWrite LED_RED (level blinkState) ;;
     digitalWrite LED_YELLOW (level blinkState) ;;
     digitalWrite LED_GREEN (level blinkState) ;;
     digitalWrite LED_BLINK (level blinkState))%stmt s
  else
    let now := millis_ in
    let elapsed := Word.rem (Word.sub now (cycleStart s)) cycleDuration in
    (digitalWrite LED_RED LOW ;;
     digitalWrite LED_YELLOW LOW ;;
     digitalWrite LED_GREEN LOW ;;
     digitalWrite LED_BLINK LOW ;;
     (if elapsed <? 2000 then
        digitalWrite LED_RED HIGH
      else if elapsed <? 2500 then
        digitalWrite LED_YELLOW HIGH
      else if elapsed <? 4500 then
        digitalWrite LED_GREEN HIGH
      else if elapsed <? 5500 then
        let tick := Word.to_int (Word.div (Word.sub elapsed 4500) 100) in
        if (tick =? 0) || (tick =? 3) || (tick =? 6) then
          digitalWrite LED_BLINK HIGH
        else skip
      else
        digitalWrite LED_YELLOW HIGH))%stmt s.

(** ** Observations *)

(** The Output Vector: the levels of the four LED latches. *)
Record Outputs : Type := mkOutputs {
  red : bool;
  yellow : bool;
  green : bool;
  blink_out : bool
}.

Definition outputs (s : State) : Outputs :=
  mkOutputs (pins s LED_RED) (pins s LED_YELLOW)
            (pins s LED_GREEN) (pins s LED_BLINK).

Definition all_off : Outputs := mkOutputs false false false false.
Definition red_only : Outputs := mkOutputs true false false false.
Definition yellow_only : Outputs := mkOutputs false true false false.
Definition green_only : Outputs := mkOutputs false false true false.
Definition blink_only (b : bool) : Outputs := mkOutputs false false false b.
Definition uniform (b : bool) : Outputs := mkOutputs b b b b.

Definition is_led (p : Z) : bool :=
  (p =? LED_RED) || (p =? LED_YELLOW) || (p =? LED_GREEN) || (p =? LED_BLINK).

(** Phase of the normal cycle, as line 140 of the sketch computes it. *)
Definition cycle_elapsed (now : Z) (s : State) : Z :=
  Word.rem (Word.sub now (cycleStart s)) cycleDuration.

(** The triple flash as the specification words it: on during the
    sub-ranges [4500,4600), [4800,4900) and [5100,5200). *)
Definition triple_flash (e : Z) : bool :=
  ((4500 <=? e) && (e <? 4600)) ||
  ((4800 <=? e) && (e <? 4900)) ||
  ((5100 <=? e) && (e <? 5200)).

(** All three mode flags are false. *)
Definition normal_mode (s : State) : Prop :=
  systemOffMode s = false /\ emergencyMode s = false /\
  blinkingMode s = false.

(** ** Events and runs *)

Inductive Event : Type :=
| EmergencyEdge (current : Z)
| ResetEdge (current : Z)
| Poll (currentState currentTime : Z)
| Tick (now : Z).

Definition step (e : Event) (s : State) : State :=
  match e with
  | EmergencyEdge c => emergencyISR c s
  | ResetEdge c => resetISR c s
  | Poll l t => pollBlinkingButton l t s
  | Tick n => updateTrafficLights n s
  end.

Fixpoint run (tr : list Event) (s : State) : State :=
  match tr with
  | [] => s
  | e :: tr' => run tr' (step e s)
  end.

(** Number of steps of a run across which the flag [f] changes value. *)
Fixpoint toggles (f : State -> bool) (tr : list Event) (s : State) : nat :=
  match tr with
  | [] => O
  | e :: tr' =>
      ((if xorb (f s) (f (step e s)) then 1 else 0)
       + toggles f tr' (step e s))%nat
  end.

(** The state in which [loop()] starts: the initialised globals after
    [setup()] ran with the clock reading [t0]. *)
Definition boot (t0 : Z) : State := setup t0 initial_state.

(** ** The two edge triggers, side by side *)

Inductive EdgeTrigger : Type := Emergency | Shutdown.

Definition isr (t : EdgeTrigger) : Z -> State -> State :=
  match t with Emergency => emergencyISR | Shutdown => resetISR end.

Definition flag (t : EdgeTrigger) : State -> bool :=
  match t with Emergency => emergencyMode | Shutdown => systemOffMode end.

Definition last_accepted (t : EdgeTrigger) : State -> Z :=
  match t with
  | Emergency => lastEmergencyInterruptTime
  | Shutdown => lastResetInterruptTime
  end.

Definition edge (t : EdgeTrigger) (current : Z) : Event :=
  match t with
  | Emergency => EmergencyEdge current
  | Shutdown => ResetEdge current
  end.

(** Events that are not an edge on trigger [t]. *)
Definition foreign (t : EdgeTrigger) (e : Event) : bool :=
  match t, e with
  | Emergency, EmergencyEdge _ => false
  | Shutdown, ResetEdge _ => false
  | _, _ => true
  end.

(** ** Polls of a run *)

(** Clock readings of the polls of a run, in order. *)
Fixpoint poll_times (tr : list Event) : list Z :=
  match tr with
  | [] => []
  | Poll _ t :: tr' => t :: poll_times tr'
  | _ :: tr' => poll_times tr'
  end.

(** Every poll is at most [w] ms after every poll before it. *)
Fixpoint within_window (w : Z) (ts : list Z) : bool :=
  match ts with
  | [] => true
  | t :: ts' =>
      forallb (fun t' => Word.sub t' t <=? w) ts' && within_window w ts'
  end.

(** Events that arrive before the debounce window of their trigger has
    passed since time 0. *)
Definition early (e : Event) : bool :=
  match e with
  | EmergencyEdge c | ResetEdge c => (0 <=? c) && (c <? debounceDelayMicro)
  | Poll _ t => (0 <=? t) && (t <=? blinkingDebounceDelay)
  | Tick _ => true
  end.

(** ** loop() *)

(** [runner.execute()] belongs to the TaskScheduler library: it calls the
    registered task [updateTrafficLights] when the task's 100 ms interval
    has elapsed and does nothing otherwise.  Whether the task runs in a
    pass is an input here: [task] is [Some n] when it runs and reads [n]
    from [millis()], and [None] when it is not due. *)
Definition runner_execute (task : option Z) : State -> State :=
  match task with
  | Some n => updateTrafficLights n
  | None => skip
  end.

Definition loop (task : option Z) (currentState currentTime : Z)
  : State -> State :=
  (runner_execute task ;;
   pollBlinkingButton currentState currentTime)%stmt.

(** ** More observations of a run *)

(** Clock readings of the edges of trigger [t] in a run, in order. *)
Fixpoint edge_times (t : EdgeTrigger) (tr : list Event) : list Z :=
  match tr with
  | [] => []
  | e :: tr' =>
      match t, e with
      | Emergency, EmergencyEdge c => c :: edge_times t tr'
      | Shutdown, ResetEdge c => c :: edge_times t tr'
      | _, _ => edge_times t tr'
      end
  end.

(** Levels read by the polls of a run, in order. *)
Fixpoint poll_levels (tr : list Event) : list Z :=
  match tr with
  | [] => []
  | Poll l _ :: tr' => l :: poll_levels tr'
  | _ :: tr' => poll_levels tr'
  end.

(** The button is held down: every poll of the run reads [LOW]. *)
Definition held_low (tr : list Event) : bool :=
  forallb (fun l => l =? LOW) (poll_levels tr).

(** The mode flags of two states agree. *)
Definition same_mode (s1 s2 : State) : Prop :=
  systemOffMode s1 = systemOffMode s2 /\
  emergencyMode s1 = emergencyMode s2 /\
  blinkingMode s1 = blinkingMode s2.

(** The Output Vector a tick leaves, as a function of the three flags,
    the reference time and the clock reading. *)
Definition resolved (off em bl : bool) (cs now : Z) : Outputs :=
  if off then all_off
  else if em then red_only
  else if bl then uniform (Z.even (now / 500))
  else
    let e := Word.rem (Word.sub now cs) cycleDuration in
    if e <? 2000 then red_only
    else if e <? 2500 then yellow_only
    else if e <? 4500 then green_only
    else if e <? 5500 then blink_only (triple_flash e)
    else yellow_only.

(** First reading of the last blink half-period before the millisecond
    counter wraps: the largest multiple of 500 below 2^32. *)
Definition last_half_period : Z := 500 * (Word.modulus / 500).

(** Pins of the three buttons. *)
Definition is_button (p : Z) : bool :=
  (p =? BUTTON_EMERGENCY) || (p =? BUTTON_RESET) || (p =? BUTTON_BLINKING).

(** ** Frames and proof automation *)

Definition same_globals (s s' : State) : Prop :=
  emergencyMode s' = emergencyMode s /\
  systemOffMode s' = systemOffMode s /\
  blinkingMode s' = blinkingMode s /\
  lastEmergencyInterruptTime s' = lastEmergencyInterruptTime s /\
  lastResetInterruptTime s' = lastResetInterruptTime s /\
  lastBlinkingDebounceTime s' = lastBlinkingDebounceTime s /\
  lastBlinkingButtonState s' = lastBlinkingButtonState s /\
  cycleStart s' = cycleStart s.

Ltac other_pins :=
  intros p Hp; unfold is_led in Hp;
  repeat (apply orb_false_elim in Hp; destruct Hp as [Hp ?]);
  unfold then_, skip; simpl;
  repeat match goal with
         | H : (p =? _) = false |- _ => rewrite H; clear H
         end; reflexivity.

Ltac resolver_cases s :=
  unfold updateTrafficLights;
  destruct (systemOffMode s) eqn:?;
    [|destruct (emergencyMode s) eqn:?;
      [|destruct (blinkingMode s) eqn:?;
        [|cbv zeta;
          destruct (_ <? 2000); [|destruct (_ <? 2500);
            [|destruct (_ <? 4500); [|destruct (_ <? 5500);
              [destruct (_ || _)|]]]]]]].

(** * Properties *)

(** ** Arithmetic helpers *)

Lemma modulus_value : Word.modulus = 4294967296.
Proof. reflexivity. Qed.

Lemma sub_exact (a b : Z) :
  0 <= a - b < 4294967296 -> Word.sub a b = a - b.
Proof.
  intros H. unfold Word.sub, Word.wrap. rewrite modulus_value.
  apply Z.mod_small. exact H.
Qed.

Lemma wrap_small (d : Z) : 0 <= d < Word.modulus -> Word.wrap d = d.
Proof. intros H. unfold Word.wrap. apply Z.mod_small. exact H. Qed.

Lemma tick_value (e : Z) :
  4500 <= e < 5500 ->
  Word.to_int (Word.div (Word.sub e 4500) 100) = (e - 4500) / 100.
Proof.
  intros H. rewrite sub_exact by lia.
  unfold Word.to_int, Word.div.
  assert (Hq : 0 <= (e - 4500) / 100 < 10).
  { split; [apply Z.div_pos; lia | apply Z.div_lt_upper_bound; lia]. }
  change (2 ^ 15) with 32768. change (2 ^ 16) with 65536.
  rewrite Z.mod_small by lia. lia.
Qed.

Lemma tick_flash (e : Z) :
  4500 <= e < 5500 ->
  (let tick := (e - 4500) / 100 in
   (tick =? 0) || (tick =? 3) || (tick =? 6)) = triple_flash e.
Proof.
  intros H. cbv zeta. unfold triple_flash.
  assert (Hq : 100 * ((e - 4500) / 100) <= e - 4500
               < 100 * ((e - 4500) / 100) + 100).
  { pose proof (Z.mul_div_le (e - 4500) 100).
    pose proof (Z.mul_succ_div_gt (e - 4500) 100). lia. }
  destruct ((e - 4500) / 100 =? 0) eqn:E0;
  destruct ((e - 4500) / 100 =? 3) eqn:E3;
  destruct ((e - 4500) / 100 =? 6) eqn:E6;
  destruct (4500 <=? e) eqn:A1; destruct (e <? 4600) eqn:A2;
  destruct (4800 <=? e) eqn:A3; destruct (e <? 4900) eqn:A4;
  destruct (5100 <=? e) eqn:A5; destruct (e <? 5200) eqn:A6;
  try reflexivity; exfalso; lia.
Qed.

Lemma cycle_elapsed_range (now : Z) (s : State) :
  0 <= cycle_elapsed now s < 6000.
Proof.
  unfold cycle_elapsed, Word.rem, cycleDuration.
  apply Z.mod_pos_bound. lia.
Qed.

(** Every phase is reached: [e] milliseconds after the reference time the
    phase is [e], also when the clock wraps in between. *)
Lemma cycle_elapsed_reached (e : Z) (s : State) :
  0 <= e < 6000 ->
  cycle_elapsed (Word.wrap (cycleStart s + e)) s = e.
Proof.
  intros H. unfold cycle_elapsed, Word.rem, Word.sub, Word.wrap, cycleDuration.
  rewrite modulus_value.
  rewrite Zminus_mod_idemp_l.
  replace (cycleStart s + e - cycleStart s) with e by lia.
  rewrite (Z.mod_small e 4294967296) by lia.
  apply Z.mod_small; exact H.
Qed.

(** ** The resolver, branch by branch *)

Section Resolver.

Variable s : State.
Variable now : Z.

Lemma resolver_shutdown :
  systemOffMode s = true ->
  outputs (updateTrafficLights now s) = all_off.
Proof.
  intros Hoff. unfold updateTrafficLights. rewrite Hoff. reflexivity.
Qed.

Lemma resolver_emergency :
  systemOffMode s = false -> emergencyMode s = true ->
  outputs (updateTrafficLights now s) = red_only.
Proof.
  intros Hoff Hem. unfold updateTrafficLights. rewrite Hoff, Hem.
  reflexivity.
Qed.

Lemma resolver_blink :
  systemOffMode s = false -> emergencyMode s = false ->
  blinkingMode s = true ->
  outputs (updateTrafficLights now s) = uniform (Z.even (now / 500)).
Proof.
  intros Hoff Hem Hbl. unfold updateTrafficLights.
  rewrite Hoff, Hem, Hbl. cbv zeta. unfold Word.rem, Word.div.
  rewrite Zmod_even.
  destruct (Z.even (now / 500)); reflexivity.
Qed.

(** In normal mode the outputs are decided by the phase alone. *)
Lemma resolver_normal :
  normal_mode s ->
  outputs (updateTrafficLights now s) =
    let e := cycle_elapsed now s in
    if e <? 2000 then red_only
    else if e <? 2500 then yellow_only
    else if e <? 4500 then green_only
    else if e <? 5500 then blink_only (triple_flash e)
    else yellow_only.
Proof.
  intros (Hoff & Hem & Hbl). unfold updateTrafficLights.
  rewrite Hoff, Hem, Hbl. cbv zeta.
  fold (cycle_elapsed now s).
  pose proof (cycle_elapsed_range now s) as He.
  set (e := cycle_elapsed now s) in *.
  destruct (e <? 2000) eqn:E1; [reflexivity|].
  destruct (e <? 2500) eqn:E2; [reflexivity|].
  destruct (e <? 4500) eqn:E3; [reflexivity|].
  destruct (e <? 5500) eqn:E4; [|reflexivity].
  assert (Hw : 4500 <= e < 5500) by lia.
  rewrite (tick_value e Hw).
  pose proof (tick_flash e Hw) as Hf. cbv zeta in Hf. rewrite Hf.
  destruct (triple_flash e); reflexivity.
Qed.

End Resolver.

(** ** Priority chain *)

(** C1: the resolver follows the chain shutdown > emergency > blink >
    normal.  The four guards exclude one another and cover every mode
    state; under each guard the Output Vector is the one of that branch
    and every output the branch does not set is off.  Shutdown gives
    all-off whatever the other two flags are (so also when all three are
    true), and emergency without shutdown gives red only. *)
Theorem priority_chain (s : State) (now : Z) :
  (systemOffMode s = true ->
     outputs (updateTrafficLights now s) = all_off) /\
  (systemOffMode s = true -> emergencyMode s = true ->
   blinkingMode s = true ->
     outputs (updateTrafficLights now s) = all_off) /\
  (systemOffMode s = false -> emergencyMode s = true ->
     outputs (updateTrafficLights now s) = red_only) /\
  (systemOffMode s = false -> emergencyMode s = false ->
   blinkingMode s = true ->
     outputs (updateTrafficLights now s) = uniform (Z.even (now / 500))) /\
  (normal_mode s ->
     In (outputs (updateTrafficLights now s))
        [red_only; yellow_only; green_only; blink_only true; all_off]) /\
  (systemOffMode s = true \/
   (systemOffMode s = false /\ emergencyMode s = true) \/
   (systemOffMode s = false /\ emergencyMode s = false /\
    blinkingMode s = true) \/
   normal_mode s).
Proof.
  split; [apply resolver_shutdown|].
  split; [intros H _ _; apply resolver_shutdown; exact H|].
  split; [apply resolver_emergency|].
  split; [apply resolver_blink|].
  split.
  - intros Hn. rewrite (resolver_normal s now Hn). cbv zeta.
    destruct (_ <? 2000); [simpl; auto|].
    destruct (_ <? 2500); [simpl; auto|].
    destruct (_ <? 4500); [simpl; auto|].
    destruct (_ <? 5500); [|simpl; auto].
    destruct (triple_flash _); simpl; auto 6.
  - unfold normal_mode.
    destruct (systemOffMode s), (emergencyMode s), (blinkingMode s);
      intuition congruence.
Qed.

Lemma priority_chain_witness :
  let s := mkState true true true 0 0 0 HIGH 0 (fun _ => true) in
  outputs (updateTrafficLights 1234 s) = all_off /\
  outputs (updateTrafficLights 1234 (set_systemOffMode false s)) = red_only.
Proof.
  cbv zeta. split.
  - apply (proj1 (proj2 (priority_chain
             (mkState true true true 0 0 0 HIGH 0 (fun _ => true)) 1234)));
      reflexivity.
  - apply (proj1 (proj2 (proj2 (priority_chain
             (set_systemOffMode false
                (mkState true true true 0 0 0 HIGH 0 (fun _ => true)))
             1234)))); reflexivity.
Defined.

(** ** Normal cycle *)

(** C2: in normal mode the Output Vector follows the window table, lower
    bounds inclusive and upper bounds exclusive, and so takes the tabled
    value at each of the ten sampled phases. *)
Theorem cycle_table (s : State) (now : Z) :
  normal_mode s ->
  let e := cycle_elapsed now s in
  let o := outputs (updateTrafficLights now s) in
  ((0 <= e < 2000 -> o = red_only) /\
   (2000 <= e < 2500 -> o = yellow_only) /\
   (2500 <= e < 4500 -> o = green_only) /\
   (4500 <= e < 5500 -> o = blink_only (triple_flash e)) /\
   (5500 <= e < 6000 -> o = yellow_only)) /\
  ((e = 0 -> o = red_only) /\
   (e = 1999 -> o = red_only) /\
   (e = 2000 -> o = yellow_only) /\
   (e = 2499 -> o = yellow_only) /\
   (e = 2500 -> o = green_only) /\
   (e = 4499 -> o = green_only) /\
   (e = 4500 -> o = blink_only true) /\
   (e = 5499 -> o = all_off) /\
   (e = 5500 -> o = yellow_only) /\
   (e = 5999 -> o = yellow_only)).
Proof.
  intros Hn e o. subst o.
  rewrite (resolver_normal s now Hn). cbv zeta. fold e.
  split.
  - repeat split; intros H;
      destruct (e <? 2000) eqn:E1; try lia; try reflexivity;
      destruct (e <? 2500) eqn:E2; try lia; try reflexivity;
      destruct (e <? 4500) eqn:E3; try lia; try reflexivity;
      destruct (e <? 5500) eqn:E4; try lia; try reflexivity.
  - repeat split; intros H; rewrite H; reflexivity.
Qed.

Lemma cycle_table_witness :
  let s := boot 1000 in
  outputs (updateTrafficLights 2999 s) = red_only /\
  outputs (updateTrafficLights 3000 s) = yellow_only /\
  outputs (updateTrafficLights 5500 s) = blink_only true /\
  outputs (updateTrafficLights 6499 s) = all_off /\
  outputs (updateTrafficLights 6500 s) = yellow_only.
Proof.
  cbv zeta.
  assert (Hn : normal_mode (boot 1000)) by (repeat split).
  pose proof (cycle_table (boot 1000) 2999 Hn) as H1.
  pose proof (cycle_table (boot 1000) 3000 Hn) as H2.
  pose proof (cycle_table (boot 1000) 5500 Hn) as H3.
  pose proof (cycle_table (boot 1000) 6499 Hn) as H4.
  pose proof (cycle_table (boot 1000) 6500 Hn) as H5.
  cbv zeta in H1, H2, H3, H4, H5.
  destruct H1 as [_ (_ & H1 & _)].
  destruct H2 as [_ (_ & _ & H2 & _)].
  destruct H3 as [_ (_ & _ & _ & _ & _ & _ & H3 & _)].
  destruct H4 as [_ (_ & _ & _ & _ & _ & _ & _ & H4 & _)].
  destruct H5 as [_ (_ & _ & _ & _ & _ & _ & _ & _ & H5 & _)].
  split; [apply H1; reflexivity|].
  split; [apply H2; reflexivity|].
  split; [apply H3; reflexivity|].
  split; [apply H4; reflexivity|].
  apply H5; reflexivity.
Defined.

(** C3: in normal mode, throughout the window [4500,5500) the red, yellow
    and green outputs are off, and the blink-output is on exactly in
    [4500,4600), [4800,4900) and [5100,5200). *)
Theorem triple_flash_window (s : State) (now : Z) :
  normal_mode s ->
  4500 <= cycle_elapsed now s < 5500 ->
  let e := cycle_elapsed now s in
  let o := outputs (updateTrafficLights now s) in
  (blink_out o = true <->
     4500 <= e < 4600 \/ 4800 <= e < 4900 \/ 5100 <= e < 5200) /\
  red o = false /\ yellow o = false /\ green o = false.
Proof.
  intros Hn Hw e o. subst o.
  rewrite (resolver_normal s now Hn). cbv zeta. fold e in Hw |- *.
  destruct (e <? 2000) eqn:E1; [lia|].
  destruct (e <? 2500) eqn:E2; [lia|].
  destruct (e <? 4500) eqn:E3; [lia|].
  destruct (e <? 5500) eqn:E4; [|lia].
  simpl. split; [|auto].
  unfold triple_flash.
  destruct (4500 <=? e) eqn:A1; destruct (e <? 4600) eqn:A2;
  destruct (4800 <=? e) eqn:A3; destruct (e <? 4900) eqn:A4;
  destruct (5100 <=? e) eqn:A5; destruct (e <? 5200) eqn:A6;
  simpl; split; intros H; try reflexivity; try discriminate; lia.
Qed.

Lemma triple_flash_window_witness :
  blink_out (outputs (updateTrafficLights 5850 (boot 1000))) = true /\
  blink_out (outputs (updateTrafficLights 5900 (boot 1000))) = false.
Proof.
  assert (Hn : normal_mode (boot 1000)) by (repeat split).
  split.
  - apply (proj1 (triple_flash_window (boot 1000) 5850 Hn
                    ltac:(vm_compute; split; congruence))).
    vm_compute. right; left. split; congruence.
  - pose proof (proj1 (triple_flash_window (boot 1000) 5900 Hn
                    ltac:(vm_compute; split; congruence))) as H.
    change (cycle_elapsed 5900 (boot 1000)) with 4900 in H.
    destruct (blink_out (outputs (updateTrafficLights 5900 (boot 1000))));
      [exfalso; pose proof (proj1 H eq_refl); lia | reflexivity].
Defined.

(** ** Blink mode *)

Lemma uniform_inj (a b : bool) : uniform a = uniform b <-> a = b.
Proof.
  split; [intros H; injection H; auto | intros ->; reflexivity].
Qed.

Lemma last_half_period_value : last_half_period = 4294967000.
Proof. reflexivity. Qed.

Lemma quotient_500 (n q : Z) :
  500 * q <= n < 500 * q + 500 -> n / 500 = q.
Proof.
  intros H. symmetry. apply (Z.div_unique n 500 q (n - 500 * q)); lia.
Qed.

(** C4 (as amended): with shutdown and emergency off and blink on, the
    four outputs carry one common level, on exactly when floor(now / 500)
    is even, [now] being the 32-bit reading of the millisecond counter.
    Two readings give different levels exactly when the parities of their
    quotients differ, and the level is constant up to the next multiple of
    500.  The reading taken 500 ms later, wrapped to 32 bits, gives the
    opposite level for every reading below 4294967000; from 4294967000 on
    the counter wraps within the half-period, the outputs are on and are
    still on 500 ms later. *)
Theorem blink_shared_parity (s : State) (now : Z) :
  Word.in_range now ->
  systemOffMode s = false -> emergencyMode s = false ->
  blinkingMode s = true ->
  let o := outputs (updateTrafficLights now s) in
  o = uniform (Z.even (now / 500)) /\
  (forall now',
     outputs (updateTrafficLights now' s) = o <->
     Z.even (now' / 500) = Z.even (now / 500)) /\
  (forall d, 0 <= d < 500 - now mod 500 ->
     outputs (updateTrafficLights (Word.wrap (now + d)) s) = o) /\
  (now < last_half_period ->
     outputs (updateTrafficLights (Word.wrap (now + 500)) s)
       = uniform (negb (Z.even (now / 500)))) /\
  (last_half_period <= now ->
     o = uniform true /\
     outputs (updateTrafficLights (Word.wrap (now + 500)) s) = uniform true).
Proof.
  intros Hr Hoff Hem Hbl o. subst o.
  unfold Word.in_range in Hr. rewrite modulus_value in Hr.
  rewrite last_half_period_value.
  rewrite (resolver_blink s now Hoff Hem Hbl).
  pose proof (Z.mod_pos_bound now 500 ltac:(lia)) as Hm.
  pose proof (Z.div_mod now 500 ltac:(lia)) as Hdm.
  split; [reflexivity|].
  split.
  { intros now'. rewrite (resolver_blink s now' Hoff Hem Hbl).
    apply uniform_inj. }
  split.
  { intros d Hd.
    rewrite (resolver_blink s (Word.wrap (now + d)) Hoff Hem Hbl).
    apply uniform_inj.
    destruct (Z_lt_le_dec (now + d) 4294967296) as [Hlt|Hge].
    - rewrite wrap_small by (rewrite modulus_value; lia).
      f_equal. apply quotient_500. lia.
    - assert (Hw : Word.wrap (now + d) = now + d - 4294967296).
      { unfold Word.wrap. rewrite modulus_value. symmetry.
        apply (Z.mod_unique (now + d) 4294967296 1); lia. }
      rewrite Hw.
      rewrite (quotient_500 (now + d - 4294967296) 0) by lia.
      rewrite (quotient_500 now 8589934) by lia. reflexivity. }
  split.
  { intros Hlast.
    rewrite (resolver_blink s (Word.wrap (now + 500)) Hoff Hem Hbl).
    apply uniform_inj.
    destruct (Z_lt_le_dec (now + 500) 4294967296) as [Hlt|Hge].
    - rewrite wrap_small by (rewrite modulus_value; lia).
      rewrite (quotient_500 (now + 500) (now / 500 + 1)) by lia.
      rewrite Z.add_1_r, Z.even_succ. symmetry. apply Z.negb_even.
    - assert (Hw : Word.wrap (now + 500) = now + 500 - 4294967296).
      { unfold Word.wrap. rewrite modulus_value. symmetry.
        apply (Z.mod_unique (now + 500) 4294967296 1); lia. }
      rewrite Hw.
      rewrite (quotient_500 (now + 500 - 4294967296) 0) by lia.
      rewrite (quotient_500 now 8589933) by lia. reflexivity. }
  intros Hlast.
  rewrite (resolver_blink s (Word.wrap (now + 500)) Hoff Hem Hbl).
  assert (Hw : Word.wrap (now + 500) = now + 500 - 4294967296).
  { unfold Word.wrap. rewrite modulus_value. symmetry.
    apply (Z.mod_unique (now + 500) 4294967296 1); lia. }
  rewrite Hw.
  rewrite (quotient_500 (now + 500 - 4294967296) 0) by lia.
  rewrite (quotient_500 now 8589934) by lia.
  split; reflexivity.
Qed.

Lemma blink_shared_parity_witness :
  let s := set_blinkingMode true (boot 0) in
  outputs (updateTrafficLights 1200 s) = uniform true /\
  outputs (updateTrafficLights 1499 s) = uniform true /\
  outputs (updateTrafficLights 1700 s) = uniform false /\
  outputs (updateTrafficLights 4294967100 s) = uniform true /\
  outputs (updateTrafficLights 304 s) = uniform true.
Proof.
  cbv zeta.
  pose proof (blink_shared_parity (set_blinkingMode true (boot 0)) 1200
                ltac:(vm_compute; split; congruence)
                eq_refl eq_refl eq_refl) as H.
  pose proof (blink_shared_parity (set_blinkingMode true (boot 0))
                4294967100 ltac:(vm_compute; split; congruence)
                eq_refl eq_refl eq_refl) as H'.
  cbv zeta in H, H'.
  destruct H as (H1 & _ & H2 & H3 & _).
  destruct H' as (_ & _ & _ & _ & H5).
  destruct (H5 ltac:(vm_compute; congruence)) as [H6 H7].
  split; [exact H1|].
  split.
  { transitivity
      (outputs (updateTrafficLights 1200 (set_blinkingMode true (boot 0))));
      [|exact H1].
    apply (H2 299). vm_compute; split; congruence. }
  split; [apply H3; vm_compute; reflexivity|].
  split; [exact H6 | exact H7].
Defined.

(** C4 fails as stated: the level does not flip every 500 ms.  At the
    reading 4294967295 the outputs are on; 500 ms later the counter has
    wrapped, the reading is 499, and they are still on. *)
Lemma blink_shared_parity_counterexample :
  ~ (forall (s : State) (now : Z),
       Word.in_range now ->
       systemOffMode s = false -> emergencyMode s = false ->
       blinkingMode s = true ->
       outputs (updateTrafficLights (Word.wrap (now + 500)) s)
         <> outputs (updateTrafficLights now s)).
Proof.
  intros H.
  apply (H (set_blinkingMode true (boot 0)) 4294967295).
  - vm_compute; split; congruence.
  - reflexivity.
  - reflexivity.
  - reflexivity.
  - vm_compute. reflexivity.
Qed.

(** ** Phase of the cycle *)

(** C8: the phase computed from the wrapped 32-bit difference lies in
    [0, 6000) for every clock reading and every reference time. *)
Theorem elapsed_bounded (now : Z) (s : State) :
  0 <= cycle_elapsed now s < cycleDuration /\
  cycle_elapsed now s
    = ((now - cycleStart s) mod Word.modulus) mod 6000.
Proof.
  split; [apply cycle_elapsed_range | reflexivity].
Qed.

(** ** Frame of the resolver *)

Lemma resolver_keeps_globals (s : State) (now : Z) :
  same_globals s (updateTrafficLights now s).
Proof.
  unfold same_globals. resolver_cases s; repeat split; assumption.
Qed.

Lemma resolver_keeps_other_pins (s : State) (now : Z) :
  forall p, is_led p = false ->
    pins (updateTrafficLights now s) p = pins s p.
Proof.
  resolver_cases s; other_pins.
Qed.

(** C9: one call of the resolver leaves the three mode flags, the three
    debounce timestamps, the last observed poll level and the cycle
    reference time as they were; of the pin latches only those of the four
    LEDs can change. *)
Theorem resolver_frame (s : State) (now : Z) :
  let s' := updateTrafficLights now s in
  emergencyMode s' = emergencyMode s /\
  systemOffMode s' = systemOffMode s /\
  blinkingMode s' = blinkingMode s /\
  lastEmergencyInterruptTime s' = lastEmergencyInterruptTime s /\
  lastResetInterruptTime s' = lastResetInterruptTime s /\
  lastBlinkingDebounceTime s' = lastBlinkingDebounceTime s /\
  lastBlinkingButtonState s' = lastBlinkingButtonState s /\
  cycleStart s' = cycleStart s /\
  (forall p, is_led p = false -> pins s' p = pins s p).
Proof.
  cbv zeta.
  pose proof (resolver_keeps_globals s now) as H. unfold same_globals in H.
  pose proof (resolver_keeps_other_pins s now) as Hp.
  intuition.
Qed.

Lemma resolver_frame_witness :
  pins (updateTrafficLights 7000 (boot 1000)) BUTTON_BLINKING
    = pins (boot 1000) BUTTON_BLINKING.
Proof.
  apply (proj2 (proj2 (proj2 (proj2 (proj2 (proj2 (proj2 (proj2
           (resolver_frame (boot 1000) 7000))))))))).
  reflexivity.
Defined.

(** ** Debounce of the edge triggers *)

Lemma toggles_app (f : State -> bool) (tr1 tr2 : list Event) (s : State) :
  toggles f (tr1 ++ tr2) s
    = (toggles f tr1 s + toggles f tr2 (run tr1 s))%nat.
Proof.
  revert s. induction tr1 as [|e tr1 IH]; intros s; simpl.
  - reflexivity.
  - rewrite IH. lia.
Qed.

Section EdgeTriggers.

Variable t : EdgeTrigger.

Lemma isr_accept (c : Z) (s : State) :
  debounceDelayMicro <= Word.sub c (last_accepted t s) ->
  flag t (isr t c s) = negb (flag t s) /\
  last_accepted t (isr t c s) = c.
Proof.
  intros H. apply Z.geb_le in H.
  destruct t; simpl; unfold emergencyISR, resetISR;
    simpl in H; rewrite H; split; reflexivity.
Qed.

Lemma isr_reject (c : Z) (s : State) :
  Word.sub c (last_accepted t s) < debounceDelayMicro ->
  isr t c s = s.
Proof.
  intros H.
  assert (Hb : (Word.sub c (last_accepted t s) >=? debounceDelayMicro)
               = false).
  { destruct (_ >=? _) eqn:E; [apply Z.geb_le in E; lia | reflexivity]. }
  destruct t; simpl; unfold emergencyISR, resetISR;
    simpl in Hb; rewrite Hb; reflexivity.
Qed.

Lemma step_edge (c : Z) (s : State) : step (edge t c) s = isr t c s.
Proof. destruct t; reflexivity. Qed.

(** The flag of a trigger changes across an invocation of its handler
    exactly when the handler's test succeeds. *)
Lemma isr_toggles_iff (c : Z) (s : State) :
  flag t (isr t c s) = negb (flag t s) <->
  debounceDelayMicro <= Word.sub c (last_accepted t s).
Proof.
  split.
  - intros H.
    destruct (Z_lt_le_dec (Word.sub c (last_accepted t s))
                debounceDelayMicro) as [Hlt|Hle]; [|exact Hle].
    rewrite (isr_reject c s Hlt) in H.
    destruct (flag t s); discriminate.
  - intros H. apply (isr_accept c s H).
Qed.

(** Events of the other trigger, polls and ticks leave the flag and the
    timestamp of [t] alone. *)
Lemma step_foreign (e : Event) (s : State) :
  foreign t e = true ->
  flag t (step e s) = flag t s /\
  last_accepted t (step e s) = last_accepted t s.
Proof.
  intros Hf.
  destruct e as [c|c|l c|n]; simpl.
  - destruct t; [discriminate|]. unfold emergencyISR.
    destruct (_ >=? _); split; reflexivity.
  - destruct t; [|discriminate]. unfold resetISR.
    destruct (_ >=? _); split; reflexivity.
  - unfold pollBlinkingButton.
    destruct (_ && _); destruct t; split; reflexivity.
  - destruct (resolver_keeps_globals s n) as (A & B & _ & C & D & _).
    destruct t; split; assumption.
Qed.

Lemma run_foreign (tr : list Event) (s : State) :
  forallb (foreign t) tr = true ->
  toggles (flag t) tr s = 0%nat /\
  flag t (run tr s) = flag t s /\
  last_accepted t (run tr s) = last_accepted t s.
Proof.
  revert s. induction tr as [|e tr IH]; intros s Hf; simpl.
  - auto.
  - simpl in Hf. apply andb_true_iff in Hf. destruct Hf as [He Htr].
    destruct (step_foreign e s He) as [Hfl Hla].
    destruct (IH (step e s) Htr) as (H0 & H1 & H2).
    rewrite H0, H1, H2, Hfl, Hla, xorb_nilpotent. auto.
Qed.

Lemma toggles_single (c : Z) (s : State) :
  toggles (flag t) [edge t c] s
    = if debounceDelayMicro <=? Word.sub c (last_accepted t s)
      then 1%nat else 0%nat.
Proof.
  simpl. rewrite step_edge.
  destruct (debounceDelayMicro <=? _) eqn:E.
  - apply Z.leb_le in E. destruct (isr_accept c s E) as [-> _].
    destruct (flag t s); reflexivity.
  - apply Z.leb_gt in E. rewrite (isr_reject c s E).
    rewrite xorb_nilpotent. reflexivity.
Qed.

End EdgeTriggers.

(** C5 (as amended): each invocation of an edge handler toggles its flag
    and stores the clock reading exactly when the 32-bit difference between
    the reading and the stored timestamp is at least 200 ms, and otherwise
    leaves the whole state as it was.  When the first of two edge events on
    a trigger is itself accepted, the pair produces one toggle if the
    second comes less than 200 ms after it and two toggles if it comes
    200 ms or more after it, whatever polls, ticks and events of the other
    trigger happen in between. *)
Theorem edge_debounce (t : EdgeTrigger) (s : State) (c1 c2 : Z)
    (mid : list Event) :
  (forall c,
     (debounceDelayMicro <= Word.sub c (last_accepted t s) ->
        flag t (isr t c s) = negb (flag t s) /\
        last_accepted t (isr t c s) = c) /\
     (Word.sub c (last_accepted t s) < debounceDelayMicro ->
        isr t c s = s)) /\
  (debounceDelayMicro <= Word.sub c1 (last_accepted t s) ->
   forallb (foreign t) mid = true ->
   let tr := edge t c1 :: mid ++ [edge t c2] in
   (Word.sub c2 c1 < debounceDelayMicro ->
      toggles (flag t) tr s = 1%nat) /\
   (debounceDelayMicro <= Word.sub c2 c1 ->
      toggles (flag t) tr s = 2%nat)).
Proof.
  split.
  { intros c. split; [apply isr_accept | apply isr_reject]. }
  intros H1 Hmid tr.
  assert (Heq : toggles (flag t) tr s
                = S (if debounceDelayMicro <=? Word.sub c2 c1
                     then 1%nat else 0%nat)).
  { subst tr.
    change (edge t c1 :: mid ++ [edge t c2])
      with ([edge t c1] ++ mid ++ [edge t c2]).
    rewrite !toggles_app, toggles_single.
    apply Z.leb_le in H1. rewrite H1. apply Z.leb_le in H1.
    change (run [edge t c1] s) with (step (edge t c1) s).
    rewrite step_edge.
    destruct (isr_accept t c1 s H1) as [_ Hla].
    destruct (run_foreign t mid (isr t c1 s) Hmid) as (H0 & _ & Hla').
    rewrite H0, toggles_single, Hla', Hla. reflexivity. }
  rewrite Heq. split; intros H2.
  - apply Z.leb_gt in H2. rewrite H2. reflexivity.
  - apply Z.leb_le in H2. rewrite H2. reflexivity.
Qed.

Lemma edge_debounce_witness :
  toggles emergencyMode
    [EmergencyEdge 300000; Tick 350; Poll LOW 360; ResetEdge 380000;
     EmergencyEdge 499999] (boot 0) = 1%nat /\
  toggles systemOffMode
    [ResetEdge 300000; Tick 350; Poll LOW 360; EmergencyEdge 380000;
     ResetEdge 500000] (boot 0) = 2%nat.
Proof.
  split.
  - apply (proj2 (edge_debounce Emergency (boot 0) 300000 499999
                    [Tick 350; Poll LOW 360; ResetEdge 380000])).
    + vm_compute; congruence.
    + reflexivity.
    + vm_compute; reflexivity.
  - apply (proj2 (edge_debounce Shutdown (boot 0) 300000 500000
                    [Tick 350; Poll LOW 360; EmergencyEdge 380000])).
    + vm_compute; congruence.
    + reflexivity.
    + vm_compute; congruence.
Defined.

(** C5 fails as stated: from the boot state, edges on the emergency trigger
    at 100 ms and 350 ms are 250 ms apart and toggle the flag once. *)
Lemma edge_debounce_counterexample :
  ~ (forall (t : EdgeTrigger) (s : State) (c1 c2 : Z),
       Word.in_range c1 -> Word.in_range c2 ->
       (Word.sub c2 c1 < debounceDelayMicro ->
          toggles (flag t) [edge t c1; edge t c2] s = 1%nat) /\
       (debounceDelayMicro <= Word.sub c2 c1 ->
          toggles (flag t) [edge t c1; edge t c2] s = 2%nat)).
Proof.
  intros H.
  destruct (H Emergency (boot 0) 100000 350000) as [_ H2].
  - vm_compute; split; congruence.
  - vm_compute; split; congruence.
  - assert (Hge : debounceDelayMicro <= Word.sub 350000 100000)
      by (vm_compute; congruence).
    specialize (H2 Hge). vm_compute in H2. discriminate.
Qed.

(** ** Debounce of the polled button *)

Section PollTrigger.

Variable s : State.
Variables l c : Z.

Lemma poll_level : lastBlinkingButtonState (pollBlinkingButton l c s) = l.
Proof. unfold pollBlinkingButton. destruct (_ && _); reflexivity. Qed.

Lemma poll_accept :
  lastBlinkingButtonState s = HIGH -> l = LOW ->
  blinkingDebounceDelay < Word.sub c (lastBlinkingDebounceTime s) ->
  blinkingMode (pollBlinkingButton l c s) = negb (blinkingMode s) /\
  lastBlinkingDebounceTime (pollBlinkingButton l c s) = c.
Proof.
  intros Hh Hl Hd. unfold pollBlinkingButton.
  rewrite Hh, Hl. apply Z.gtb_lt in Hd. rewrite Hd. simpl.
  split; reflexivity.
Qed.

Lemma poll_reject :
  lastBlinkingButtonState s <> HIGH \/ l <> LOW \/
  Word.sub c (lastBlinkingDebounceTime s) <= blinkingDebounceDelay ->
  blinkingMode (pollBlinkingButton l c s) = blinkingMode s /\
  lastBlinkingDebounceTime (pollBlinkingButton l c s)
    = lastBlinkingDebounceTime s.
Proof.
  intros H. unfold pollBlinkingButton.
  destruct ((lastBlinkingButtonState s =? HIGH) && (l =? LOW) &&
            (Word.sub c (lastBlinkingDebounceTime s)
               >? blinkingDebounceDelay)) eqn:E.
  - apply andb_true_iff in E. destruct E as [E E3].
    apply andb_true_iff in E. destruct E as [E1 E2].
    apply Z.eqb_eq in E1. apply Z.eqb_eq in E2. apply Z.gtb_lt in E3.
    exfalso. destruct H as [H|[H|H]]; [auto | auto | lia].
  - split; reflexivity.
Qed.

Lemma poll_toggles_iff :
  blinkingMode (pollBlinkingButton l c s) = negb (blinkingMode s) <->
  lastBlinkingButtonState s = HIGH /\ l = LOW /\
  blinkingDebounceDelay < Word.sub c (lastBlinkingDebounceTime s).
Proof.
  split.
  - intros H.
    destruct (Z.eq_dec (lastBlinkingButtonState s) HIGH) as [Hh|Hh];
    [destruct (Z.eq_dec l LOW) as [Hl|Hl];
     [destruct (Z_lt_le_dec blinkingDebounceDelay
                  (Word.sub c (lastBlinkingDebounceTime s))) as [Hd|Hd];
      [auto|]|]|];
    exfalso;
    (destruct poll_reject as [Hr _]; [tauto|]);
    rewrite Hr in H; destruct (blinkingMode s); discriminate.
  - intros (Hh & Hl & Hd). apply poll_accept; assumption.
Qed.

End PollTrigger.

(** Edges and ticks leave the blink flag and its timestamp alone. *)
Lemma step_not_poll (e : Event) (s : State) :
  (forall l c, e <> Poll l c) ->
  blinkingMode (step e s) = blinkingMode s /\
  lastBlinkingDebounceTime (step e s) = lastBlinkingDebounceTime s.
Proof.
  intros Hne. destruct e as [c|c|l c|n]; simpl.
  - unfold emergencyISR. destruct (_ >=? _); split; reflexivity.
  - unfold resetISR. destruct (_ >=? _); split; reflexivity.
  - exfalso. apply (Hne l c). reflexivity.
  - destruct (resolver_keeps_globals s n) as (_ & _ & A & _ & _ & B & _).
    split; assumption.
Qed.

(** Once every remaining poll is within the window of the stored
    timestamp, no poll is accepted any more. *)
Lemma polls_quiet (tr : list Event) (s : State) :
  forallb (fun t' => Word.sub t' (lastBlinkingDebounceTime s)
                       <=? blinkingDebounceDelay) (poll_times tr) = true ->
  toggles blinkingMode tr s = 0%nat.
Proof.
  revert s. induction tr as [|e tr IH]; intros s H; simpl; [reflexivity|].
  assert (Hstep : blinkingMode (step e s) = blinkingMode s /\
                  lastBlinkingDebounceTime (step e s)
                    = lastBlinkingDebounceTime s /\
                  forallb (fun t' => Word.sub t' (lastBlinkingDebounceTime s)
                                       <=? blinkingDebounceDelay)
                          (poll_times tr) = true).
  { destruct e as [c|c|l c|n].
    1, 2, 4: (split; [|split; [|exact H]]; apply step_not_poll;
              intros l' c' Heq; discriminate Heq).
    simpl in H. apply andb_true_iff in H. destruct H as [Hc Htr].
    apply Z.leb_le in Hc.
    destruct (poll_reject s l c) as [A B]; [auto|].
    simpl. auto. }
  destruct Hstep as (Hm & Hl & Htr).
  rewrite Hm, xorb_nilpotent. simpl. apply IH. rewrite Hl. exact Htr.
Qed.

Lemma polls_at_most_once (tr : list Event) (s : State) :
  within_window blinkingDebounceDelay (poll_times tr) = true ->
  (toggles blinkingMode tr s <= 1)%nat.
Proof.
  revert s. induction tr as [|e tr IH]; intros s H; simpl; [lia|].
  destruct e as [c|c|l c|n].
  1, 2, 4: (match goal with
            | |- context [step ?e ?s0] =>
                destruct (step_not_poll e s0) as [Hm _];
                [intros l' c' Heq; discriminate Heq|]
            end;
            rewrite Hm, xorb_nilpotent; simpl; apply IH; exact H).
  simpl in H. apply andb_true_iff in H. destruct H as [Hc Htr].
  destruct (xorb _ _) eqn:Hx.
  - assert (Hacc : lastBlinkingDebounceTime (step (Poll l c) s) = c).
    { simpl.
      destruct (Z.eq_dec (lastBlinkingButtonState s) HIGH) as [Hh|Hh];
      [destruct (Z.eq_dec l LOW) as [Hl|Hl];
       [destruct (Z_lt_le_dec blinkingDebounceDelay
                    (Word.sub c (lastBlinkingDebounceTime s))) as [Hd|Hd];
        [apply poll_accept; assumption|]|]|];
      exfalso;
      (destruct (poll_reject s l c) as [Hr _]; [tauto|]);
      change (step (Poll l c) s) with (pollBlinkingButton l c s) in Hx;
      rewrite Hr, xorb_nilpotent in Hx; discriminate. }
    rewrite polls_quiet; [lia|]. rewrite Hacc. exact Hc.
  - simpl. apply IH. exact Htr.
Qed.

(** C6 (as amended): an edge handler toggles its flag if and only if the
    32-bit difference between the clock reading and the stored timestamp
    of that trigger is at least 200 ms; a poll toggles the blink flag if
    and only if it observes a high-to-low transition and the difference
    to the stored timestamp is strictly more than 50 ms. *)
Theorem toggle_accepted_iff :
  (forall (t : EdgeTrigger) (s : State) (c : Z),
     flag t (isr t c s) = negb (flag t s) <->
     debounceDelayMicro <= Word.sub c (last_accepted t s)) /\
  (forall (s : State) (l c : Z),
     blinkingMode (pollBlinkingButton l c s) = negb (blinkingMode s) <->
     lastBlinkingButtonState s = HIGH /\ l = LOW /\
     blinkingDebounceDelay < Word.sub c (lastBlinkingDebounceTime s)).
Proof.
  split.
  - intros t s c. apply isr_toggles_iff.
  - intros s l c. apply poll_toggles_iff.
Qed.

Lemma toggle_accepted_iff_witness :
  emergencyMode (emergencyISR 200000 (boot 0)) = true /\
  blinkingMode (pollBlinkingButton LOW 51 (boot 0)) = true.
Proof.
  split.
  - apply (proj2 (proj1 toggle_accepted_iff Emergency (boot 0) 200000)).
    vm_compute; congruence.
  - apply (proj2 (proj2 toggle_accepted_iff (boot 0) LOW 51)).
    repeat split.
Defined.

(** C6 fails as stated: an edge exactly 200 ms after the stored timestamp
    is accepted although the elapsed time does not exceed the window. *)
Lemma toggle_accepted_iff_counterexample :
  ~ (forall (t : EdgeTrigger) (s : State) (c : Z),
       flag t (isr t c s) = negb (flag t s) <->
       debounceDelayMicro < Word.sub c (last_accepted t s)).
Proof.
  intros H.
  assert (Ht : flag Emergency (isr Emergency 200000 (boot 0))
               = negb (flag Emergency (boot 0))) by reflexivity.
  apply (proj1 (H Emergency (boot 0) 200000)) in Ht.
  vm_compute in Ht. discriminate.
Qed.

(** C7: every poll stores the raw level it read, accepted or not; and in a
    run whose polls all lie within 50 ms of one another the blink flag is
    toggled at most once, so a high, low, high, low bounce inside 50 ms
    gives at most one toggle. *)
Theorem poll_bounce (s : State) :
  (forall l c, lastBlinkingButtonState (pollBlinkingButton l c s) = l) /\
  (forall tr,
     within_window blinkingDebounceDelay (poll_times tr) = true ->
     (toggles blinkingMode tr s <= 1)%nat) /\
  (forall c1 c2 c3 c4,
     within_window blinkingDebounceDelay [c1; c2; c3; c4] = true ->
     (toggles blinkingMode
        [Poll HIGH c1; Poll LOW c2; Poll HIGH c3; Poll LOW c4] s <= 1)%nat).
Proof.
  split; [intros l c; apply poll_level|].
  split; [intros tr; apply polls_at_most_once|].
  intros c1 c2 c3 c4 H. apply polls_at_most_once. exact H.
Qed.

Lemma poll_bounce_witness :
  (toggles blinkingMode
     [Poll HIGH 1000; Poll LOW 1010; Tick 1015; Poll HIGH 1020;
      Poll LOW 1050] (boot 0) <= 1)%nat /\
  (toggles blinkingMode
     [Poll HIGH 4294967290; Poll LOW 4294967295; Poll HIGH 10; Poll LOW 44]
     (boot 0) <= 1)%nat.
Proof.
  split.
  - apply (proj1 (proj2 (poll_bounce (boot 0)))). reflexivity.
  - apply (proj2 (proj2 (poll_bounce (boot 0)))). reflexivity.
Defined.

(** ** First events after boot *)

(** While only early events have happened, nothing was accepted. *)
Lemma early_run (tr : list Event) (s : State) :
  forallb early tr = true ->
  lastEmergencyInterruptTime s = 0 -> lastResetInterruptTime s = 0 ->
  lastBlinkingDebounceTime s = 0 ->
  let s' := run tr s in
  emergencyMode s' = emergencyMode s /\
  systemOffMode s' = systemOffMode s /\
  blinkingMode s' = blinkingMode s /\
  lastEmergencyInterruptTime s' = 0 /\ lastResetInterruptTime s' = 0 /\
  lastBlinkingDebounceTime s' = 0.
Proof.
  revert s. induction tr as [|e tr IH]; intros s He H1 H2 H3; simpl.
  - auto 6.
  - simpl in He. apply andb_true_iff in He. destruct He as [He Htr].
    assert (Hs : emergencyMode (step e s) = emergencyMode s /\
                 systemOffMode (step e s) = systemOffMode s /\
                 blinkingMode (step e s) = blinkingMode s /\
                 lastEmergencyInterruptTime (step e s) = 0 /\
                 lastResetInterruptTime (step e s) = 0 /\
                 lastBlinkingDebounceTime (step e s) = 0).
    { destruct e as [c|c|l c|n]; simpl in He;
        unfold step; fold (isr Emergency); fold (isr Shutdown).
      - apply andb_true_iff in He. destruct He as [A B].
        apply Z.leb_le in A. apply Z.ltb_lt in B.
        rewrite (isr_reject Emergency c s); [auto 6|].
        simpl. rewrite H1, sub_exact; unfold debounceDelayMicro in *; lia.
      - apply andb_true_iff in He. destruct He as [A B].
        apply Z.leb_le in A. apply Z.ltb_lt in B.
        rewrite (isr_reject Shutdown c s); [auto 6|].
        simpl. rewrite H2, sub_exact; unfold debounceDelayMicro in *; lia.
      - apply andb_true_iff in He. destruct He as [A B].
        apply Z.leb_le in A. apply Z.leb_le in B.
        destruct (poll_reject s l c) as [P Q].
        { right; right. rewrite H3, sub_exact;
            unfold blinkingDebounceDelay in *; lia. }
        rewrite P, Q.
        unfold pollBlinkingButton. destruct (_ && _); auto 6.
      - destruct (resolver_keeps_globals s n)
          as (A & B & C & D & E & F & _).
        rewrite A, B, C, D, E, F. auto 6. }
    destruct Hs as (A & B & C & D & E & F).
    destruct (IH (step e s) Htr D E F) as (A' & B' & C' & D' & E' & F').
    rewrite A', B', C', A, B, C. auto 6.
Qed.

(** C10: the timestamps start at 0, so the window of each trigger is first
    measured from time 0.  After boot, and after any number of further
    events that all came early, the flags are still false; an edge on the
    emergency or the shutdown trigger less than 200 ms after boot leaves
    the state as it is, and a poll at 50 ms or less after boot, high-to-low
    transition or not, leaves the blink flag false and its timestamp 0. *)
Theorem first_event_debounced (t0 : Z) (tr : list Event) :
  forallb early tr = true ->
  let s := run tr (boot t0) in
  (emergencyMode s = false /\ systemOffMode s = false /\
   blinkingMode s = false) /\
  (forall c, 0 <= c < debounceDelayMicro ->
     emergencyISR c s = s /\ resetISR c s = s) /\
  (forall l c, 0 <= c <= blinkingDebounceDelay ->
     blinkingMode (pollBlinkingButton l c s) = false /\
     lastBlinkingDebounceTime (pollBlinkingButton l c s) = 0).
Proof.
  intros He s.
  destruct (early_run tr (boot t0) He eq_refl eq_refl eq_refl)
    as (A & B & C & D & E & F).
  fold s in A, B, C, D, E, F.
  change (emergencyMode (boot t0)) with false in A.
  change (systemOffMode (boot t0)) with false in B.
  change (blinkingMode (boot t0)) with false in C.
  split; [auto|]. split.
  - intros c Hc. split.
    + apply (isr_reject Emergency). simpl.
      rewrite D, sub_exact; unfold debounceDelayMicro in *; lia.
    + apply (isr_reject Shutdown). simpl.
      rewrite E, sub_exact; unfold debounceDelayMicro in *; lia.
  - intros l c Hc.
    destruct (poll_reject s l c) as [P Q].
    { right; right. rewrite F, sub_exact;
        unfold blinkingDebounceDelay in *; lia. }
    rewrite P, Q. auto.
Qed.

Lemma first_event_debounced_witness :
  emergencyMode (emergencyISR 199999 (boot 7)) = false /\
  systemOffMode (resetISR 199999 (boot 7)) = false /\
  blinkingMode (pollBlinkingButton LOW 50 (boot 7)) = false /\
  blinkingMode
    (pollBlinkingButton LOW 50
       (run [EmergencyEdge 1000; Poll HIGH 20; Tick 30] (boot 7))) = false.
Proof.
  pose proof (first_event_debounced 7 [] eq_refl) as H0.
  pose proof (first_event_debounced 7
                [EmergencyEdge 1000; Poll HIGH 20; Tick 30] eq_refl) as H1.
  cbv zeta in H0, H1.
  destruct H0 as (_ & He & Hp). destruct H1 as (_ & _ & Hp1).
  assert (Hc : 0 <= 199999 < debounceDelayMicro)
    by (vm_compute; split; congruence).
  assert (Hd : 0 <= 50 <= blinkingDebounceDelay)
    by (vm_compute; split; congruence).
  destruct (He 199999 Hc) as [He1 He2].
  change (run [] (boot 7)) with (boot 7) in He1, He2.
  rewrite He1, He2.
  split; [reflexivity|]. split; [reflexivity|].
  split; [apply (Hp LOW 50 Hd) | apply (Hp1 LOW 50 Hd)].
Defined.

(** * Further properties of the sketch *)

(** ** setup() and the first cycle *)

Lemma pins_digitalWrite_other (pin val p : Z) (s : State) :
  (p =? pin) = false -> pins (digitalWrite pin val s) p = pins s p.
Proof. intros H. simpl. rewrite H. reflexivity. Qed.

Lemma pins_pinMode_other (pin mode p : Z) (s : State) :
  (p =? pin) = false -> pins (pinMode pin mode s) p = pins s p.
Proof.
  intros H. unfold pinMode.
  destruct (mode =? INPUT); [simpl; rewrite H; reflexivity|].
  destruct (mode =? INPUT_PULLUP); [simpl; rewrite H|]; reflexivity.
Qed.

(** X1: setup() drives the four LED latches low whatever they were, sets
    the latches of the three button pins (their pull-ups), and stores the
    clock reading as the reference time of the cycle; it changes neither
    the mode flags, the debounce state nor the latch of any pin that is
    neither an LED nor a button. *)
Theorem setup_effect (now : Z) (s : State) :
  let s' := setup now s in
  outputs s' = all_off /\
  (forall p, is_button p = true -> pins s' p = true) /\
  cycleStart s' = now /\
  same_mode s' s /\
  lastEmergencyInterruptTime s' = lastEmergencyInterruptTime s /\
  lastResetInterruptTime s' = lastResetInterruptTime s /\
  lastBlinkingDebounceTime s' = lastBlinkingDebounceTime s /\
  lastBlinkingButtonState s' = lastBlinkingButtonState s /\
  (forall p, is_led p = false -> is_button p = false ->
     pins s' p = pins s p).
Proof.
  cbv zeta. unfold same_mode.
  split; [vm_compute; reflexivity|]. split.
  { intros p Hp. unfold is_button in Hp.
    repeat (apply orb_true_iff in Hp; destruct Hp as [Hp|Hp]);
      apply Z.eqb_eq in Hp; subst p; vm_compute; reflexivity. }
  split; [reflexivity|].
  split; [repeat split|].
  split; [reflexivity|]. split; [reflexivity|].
  split; [reflexivity|]. split; [reflexivity|].
  intros p Hl Hb. unfold is_led in Hl. unfold is_button in Hb.
  repeat (apply orb_false_elim in Hl; destruct Hl as [Hl ?]).
  repeat (apply orb_false_elim in Hb; destruct Hb as [Hb ?]).
  unfold setup, then_.
  change (pins (set_cycleStart now ?x)) with (pins x).
  rewrite !pins_pinMode_other, !pins_digitalWrite_other,
    !pins_pinMode_other by assumption.
  reflexivity.
Qed.

Lemma setup_effect_witness :
  pins (setup 42 initial_state) BUTTON_RESET = true /\
  pins (setup 42 initial_state) 13 = false.
Proof.
  destruct (setup_effect 42 initial_state)
    as (_ & Hb & _ & _ & _ & _ & _ & _ & Ho).
  split.
  - apply Hb. reflexivity.
  - rewrite Ho; reflexivity.
Defined.

Lemma wrap_sub_offset (a d : Z) :
  Word.sub (Word.wrap (a + d)) a = Word.wrap d.
Proof.
  unfold Word.sub, Word.wrap. rewrite Zminus_mod_idemp_l.
  f_equal. lia.
Qed.

Lemma run_keeps_cycleStart (tr : list Event) (s : State) :
  cycleStart (run tr s) = cycleStart s.
Proof.
  revert s. induction tr as [|e tr IH]; intros s; simpl; [reflexivity|].
  rewrite IH.
  destruct e as [c|c|l c|n]; simpl.
  - unfold emergencyISR. destruct (_ >=? _); reflexivity.
  - unfold resetISR. destruct (_ >=? _); reflexivity.
  - unfold pollBlinkingButton. destruct (_ && _); reflexivity.
  - apply (resolver_keeps_globals s n).
Qed.

(** X2: in the first 2^32 ms after setup() the phase of the cycle is the
    time since setup() modulo 6000, whatever edges, polls and ticks have
    happened since and also when the millisecond clock wraps in between;
    so as long as the three mode flags are false, a tick less than
    2000 ms after setup() shows red only. *)
Theorem boot_phase (t0 d : Z) (tr : list Event) :
  0 <= d < Word.modulus ->
  let now := Word.wrap (t0 + d) in
  let s := run tr (boot t0) in
  cycle_elapsed now s = d mod cycleDuration /\
  (d < 2000 -> normal_mode s ->
   outputs (updateTrafficLights now s) = red_only).
Proof.
  intros Hd now s.
  assert (He : cycle_elapsed now s = d mod cycleDuration).
  { unfold cycle_elapsed, Word.rem. subst s.
    rewrite run_keeps_cycleStart.
    change (cycleStart (boot t0)) with t0. subst now.
    rewrite wrap_sub_offset, wrap_small by exact Hd. reflexivity. }
  split; [exact He|].
  intros H2 Hn.
  rewrite (resolver_normal s now Hn). cbv zeta. rewrite He.
  unfold cycleDuration. rewrite Z.mod_small by lia.
  destruct (d <? 2000) eqn:E; [reflexivity | lia].
Qed.

Lemma boot_phase_witness :
  outputs (updateTrafficLights 703 (boot 4294966000)) = red_only /\
  outputs (updateTrafficLights 1600
             (run [Poll LOW 60; Tick 100; Poll HIGH 200; Poll LOW 300]
                  (boot 0))) = red_only.
Proof.
  assert (Hd : 0 <= 1999 < Word.modulus) by (vm_compute; split; congruence).
  assert (Hd' : 0 <= 1600 < Word.modulus)
    by (vm_compute; split; congruence).
  split.
  - apply (proj2 (boot_phase 4294966000 1999 [] Hd)).
    + vm_compute; congruence.
    + repeat split.
  - apply (proj2 (boot_phase 0 1600
                    [Poll LOW 60; Tick 100; Poll HIGH 200; Poll LOW 300]
                    Hd')).
    + vm_compute; congruence.
    + repeat split.
Defined.

(** ** How the phase advances *)

Lemma sub_wrap_add (now cs d : Z) :
  Word.sub (Word.wrap (now + d)) cs = Word.wrap (Word.sub now cs + d).
Proof.
  unfold Word.sub, Word.wrap.
  rewrite Zminus_mod_idemp_l, Zplus_mod_idemp_l. f_equal. lia.
Qed.

(** X3: while the 32-bit time since the reference does not overflow, [d] more
    milliseconds advance the phase by [d] modulo 6000: the cycle repeats
    every 6000 ms without drift. *)
Theorem phase_advance (s : State) (now d : Z) :
  0 <= d ->
  Word.sub now (cycleStart s) + d < Word.modulus ->
  cycle_elapsed (Word.wrap (now + d)) s
    = (cycle_elapsed now s + d) mod cycleDuration /\
  (d mod cycleDuration = 0 ->
   cycle_elapsed (Word.wrap (now + d)) s = cycle_elapsed now s).
Proof.
  intros Hd Hlt.
  assert (Hu : 0 <= Word.sub now (cycleStart s))
    by (apply Z.mod_pos_bound; reflexivity).
  assert (He : cycle_elapsed (Word.wrap (now + d)) s
               = (cycle_elapsed now s + d) mod cycleDuration).
  { unfold cycle_elapsed, Word.rem.
    rewrite sub_wrap_add, wrap_small by lia.
    rewrite Zplus_mod_idemp_l. reflexivity. }
  split; [exact He|].
  intros H0. rewrite He.
  rewrite Z.add_mod, H0, Z.add_0_r, Z.mod_mod by (unfold cycleDuration; lia).
  unfold cycle_elapsed, Word.rem. apply Z.mod_mod.
  unfold cycleDuration; lia.
Qed.

Lemma phase_advance_witness :
  cycle_elapsed 13500 (boot 1000) = cycle_elapsed 1500 (boot 1000).
Proof.
  apply (proj2 (phase_advance (boot 1000) 1500 12000
                  ltac:(vm_compute; congruence) ltac:(reflexivity))).
  reflexivity.
Defined.

(** X4: when the 32-bit time since the reference overflows, the phase does
    not continue: 2^32 is 5296 more than a multiple of 6000, so after the
    overflow the phase is 704 ms ahead of where the cycle would be. *)
Theorem phase_jump_on_overflow (s : State) (now d : Z) :
  0 <= d < Word.modulus ->
  Word.modulus <= Word.sub now (cycleStart s) + d ->
  cycle_elapsed (Word.wrap (now + d)) s
    = (cycle_elapsed now s + d + 704) mod cycleDuration.
Proof.
  intros Hd Hge.
  pose proof (Z.mod_pos_bound (now - cycleStart s) Word.modulus
                ltac:(reflexivity)) as Hu.
  fold (Word.wrap (now - cycleStart s)) in Hu.
  fold (Word.sub now (cycleStart s)) in Hu.
  unfold cycle_elapsed, Word.rem. rewrite sub_wrap_add.
  set (u := Word.sub now (cycleStart s)) in *.
  assert (Hw : Word.wrap (u + d) = u + d - Word.modulus).
  { unfold Word.wrap. symmetry.
    apply (Z.mod_unique (u + d) Word.modulus 1); lia. }
  rewrite Hw, modulus_value. unfold cycleDuration.
  replace (u + d - 4294967296) with (u + (d + 704) + (-715828) * 6000)
    by lia.
  rewrite Z.mod_add by lia.
  rewrite <- (Zplus_mod_idemp_l u (d + 704)). f_equal. lia.
Qed.

Lemma phase_jump_on_overflow_witness :
  cycle_elapsed 0 (boot 1) = 5295 /\ cycle_elapsed 1 (boot 1) = 0.
Proof.
  split; [reflexivity|].
  apply (phase_jump_on_overflow (boot 1) 0 1).
  - vm_compute; split; congruence.
  - vm_compute; congruence.
Defined.

(** ** The resolver has no memory *)

Lemma resolver_outputs (s : State) (now : Z) :
  outputs (updateTrafficLights now s)
    = resolved (systemOffMode s) (emergencyMode s) (blinkingMode s)
               (cycleStart s) now.
Proof.
  unfold resolved.
  destruct (systemOffMode s) eqn:E1.
  { apply resolver_shutdown. exact E1. }
  destruct (emergencyMode s) eqn:E2.
  { apply resolver_emergency; assumption. }
  destruct (blinkingMode s) eqn:E3.
  { apply resolver_blink; assumption. }
  rewrite resolver_normal by (repeat split; assumption). reflexivity.
Qed.

(** X5: the outputs after a call of the resolver depend on the three mode
    flags, the reference time and the clock reading only: not on the
    levels the pins had before, nor on any debounce state. *)
Theorem resolver_memoryless (s1 s2 : State) (now : Z) :
  same_mode s1 s2 -> cycleStart s1 = cycleStart s2 ->
  outputs (updateTrafficLights now s1) = outputs (updateTrafficLights now s2).
Proof.
  intros (Hoff & Hem & Hbl) Hcs.
  rewrite !resolver_outputs.
  rewrite Hoff, Hem, Hbl, Hcs. reflexivity.
Qed.

Lemma resolver_memoryless_witness :
  outputs (updateTrafficLights 3100
             (mkState false false false 9 8 7 LOW 1000 (fun _ => true)))
  = outputs (updateTrafficLights 3100 (boot 1000)).
Proof.
  apply resolver_memoryless; [repeat split | reflexivity].
Defined.

Lemma led_cases (p : Z) :
  is_led p = true ->
  p = LED_RED \/ p = LED_YELLOW \/ p = LED_GREEN \/ p = LED_BLINK.
Proof.
  unfold is_led. intros H.
  repeat (apply orb_true_iff in H; destruct H as [H|H]);
    apply Z.eqb_eq in H; auto.
Qed.

(** X6: running the resolver again with the same clock reading changes no pin
    at all: a tick only ever moves the pins to the levels the current
    mode and time prescribe. *)
Theorem resolver_idempotent (s : State) (now : Z) (p : Z) :
  pins (updateTrafficLights now (updateTrafficLights now s)) p
    = pins (updateTrafficLights now s) p.
Proof.
  destruct (resolver_keeps_globals s now) as (A & B & C & _ & _ & _ & _ & D).
  assert (Ho : outputs (updateTrafficLights now (updateTrafficLights now s))
               = outputs (updateTrafficLights now s)).
  { rewrite !resolver_outputs. rewrite A, B, C, D. reflexivity. }
  destruct (is_led p) eqn:Hp.
  - unfold outputs in Ho. injection Ho as H1 H2 H3 H4.
    destruct (led_cases p Hp) as [-> | [-> | [-> | ->]]]; assumption.
  - apply resolver_keeps_other_pins. exact Hp.
Qed.

(** ** Outputs never conflict *)

(** X7: whatever the state and the time, the resolver leaves one of six
    Output Vectors; red and green are on together only in blink mode,
    in the half of the blink period in which every output is on. *)
Theorem outputs_never_conflict (s : State) (now : Z) :
  let o := outputs (updateTrafficLights now s) in
  In o [all_off; red_only; yellow_only; green_only; blink_only true;
        uniform true] /\
  (red o = true -> green o = true ->
   systemOffMode s = false /\ emergencyMode s = false /\
   blinkingMode s = true /\ Z.even (now / 500) = true).
Proof.
  cbv zeta.
  destruct (systemOffMode s) eqn:E1.
  { rewrite resolver_shutdown by assumption.
    split; [simpl; auto | discriminate]. }
  destruct (emergencyMode s) eqn:E2.
  { rewrite resolver_emergency by assumption.
    split; [simpl; auto | simpl; discriminate]. }
  destruct (blinkingMode s) eqn:E3.
  { rewrite resolver_blink by assumption.
    destruct (Z.even (now / 500)); split;
      [simpl; auto 7 | auto | simpl; auto | discriminate]. }
  rewrite resolver_normal by (repeat split; assumption). cbv zeta.
  destruct (_ <? 2000); [split; [simpl; auto | simpl; discriminate]|].
  destruct (_ <? 2500); [split; [simpl; auto | discriminate]|].
  destruct (_ <? 4500); [split; [simpl; auto | discriminate]|].
  destruct (_ <? 5500); [|split; [simpl; auto | discriminate]].
  destruct (triple_flash _); split;
    [simpl; auto 6 | discriminate | simpl; auto | discriminate].
Qed.

Lemma outputs_never_conflict_witness :
  Z.even (1234 / 500) = true.
Proof.
  apply (proj2 (outputs_never_conflict
                  (set_blinkingMode true (boot 0)) 1234));
    reflexivity.
Defined.

(** ** What the handlers leave alone *)

(** X8: an interrupt handler either changes nothing, or it negates the flag
    of its own trigger and stores the clock reading as that trigger's
    timestamp; the other trigger's flag and timestamp, the blink flag and
    its debounce state, the reference time and every pin are never
    touched. *)
Theorem isr_frame (t : EdgeTrigger) (c : Z) (s : State) :
  let s' := isr t c s in
  (s' = s \/
   (flag t s' = negb (flag t s) /\ last_accepted t s' = c)) /\
  (forall t', t' <> t ->
     flag t' s' = flag t' s /\ last_accepted t' s' = last_accepted t' s) /\
  blinkingMode s' = blinkingMode s /\
  lastBlinkingDebounceTime s' = lastBlinkingDebounceTime s /\
  lastBlinkingButtonState s' = lastBlinkingButtonState s /\
  cycleStart s' = cycleStart s /\
  pins s' = pins s.
Proof.
  cbv zeta.
  destruct t; simpl; unfold emergencyISR, resetISR;
    destruct (_ >=? _); simpl;
    (split; [auto|]); (split; [|auto 6]);
    intros [|] Hne; try contradiction; auto.
Qed.

Lemma isr_frame_witness :
  systemOffMode (emergencyISR 250000 (boot 0)) = false /\
  lastResetInterruptTime (emergencyISR 250000 (boot 0)) = 0.
Proof.
  apply (proj1 (proj2 (isr_frame Emergency 250000 (boot 0))) Shutdown).
  discriminate.
Defined.

(** X9: a poll changes at most the blink flag, the blink timestamp and the
    stored level: the emergency and shutdown flags, their timestamps, the
    reference time and every pin are never touched. *)
Theorem poll_frame (l c : Z) (s : State) :
  let s' := pollBlinkingButton l c s in
  emergencyMode s' = emergencyMode s /\
  systemOffMode s' = systemOffMode s /\
  lastEmergencyInterruptTime s' = lastEmergencyInterruptTime s /\
  lastResetInterruptTime s' = lastResetInterruptTime s /\
  cycleStart s' = cycleStart s /\
  pins s' = pins s /\
  (blinkingMode s' = blinkingMode s /\
   lastBlinkingDebounceTime s' = lastBlinkingDebounceTime s \/
   blinkingMode s' = negb (blinkingMode s) /\
   lastBlinkingDebounceTime s' = c).
Proof.
  cbv zeta. unfold pollBlinkingButton.
  destruct (_ && _); simpl; repeat split; auto.
Qed.

(** ** Handlers commute *)

(** X10: the two interrupt handlers and the poll work on disjoint variables:
    in whichever order two of them run one after the other, the resulting
    state is the same. *)
Theorem handlers_commute (c1 c2 l c : Z) (s : State) :
  emergencyISR c1 (resetISR c2 s) = resetISR c2 (emergencyISR c1 s) /\
  emergencyISR c1 (pollBlinkingButton l c s)
    = pollBlinkingButton l c (emergencyISR c1 s) /\
  resetISR c2 (pollBlinkingButton l c s)
    = pollBlinkingButton l c (resetISR c2 s).
Proof.
  unfold emergencyISR, resetISR, pollBlinkingButton.
  repeat split.
  - destruct (Word.sub c2 _ >=? _) eqn:E2; simpl;
      destruct (Word.sub c1 _ >=? _) eqn:E1; simpl;
      rewrite ?E1, ?E2; reflexivity.
  - destruct (_ && _) eqn:Ep; simpl;
      destruct (Word.sub c1 _ >=? _) eqn:E1; simpl;
      rewrite ?Ep; reflexivity.
  - destruct (_ && _) eqn:Ep; simpl;
      destruct (Word.sub c2 _ >=? _) eqn:E2; simpl;
      rewrite ?Ep; reflexivity.
Qed.

(** ** Holding the polled button *)

Lemma step_keeps_level (e : Event) (s : State) :
  (forall l c, e <> Poll l c) ->
  lastBlinkingButtonState (step e s) = lastBlinkingButtonState s.
Proof.
  intros Hne. destruct e as [c|c|l c|n]; simpl.
  - unfold emergencyISR. destruct (_ >=? _); reflexivity.
  - unfold resetISR. destruct (_ >=? _); reflexivity.
  - exfalso. apply (Hne l c). reflexivity.
  - apply (resolver_keeps_globals s n).
Qed.

(** Once a poll has read [LOW], no further [LOW] poll is a transition. *)
Lemma held_quiet (tr : list Event) (s : State) :
  lastBlinkingButtonState s <> HIGH ->
  held_low tr = true ->
  toggles blinkingMode tr s = 0%nat.
Proof.
  unfold held_low.
  revert s. induction tr as [|e tr IH]; intros s Hs Hl; simpl;
    [reflexivity|].
  destruct e as [c|c|l c|n].
  1, 2, 4: (match goal with
            | |- context [step ?e ?s0] =>
                destruct (step_not_poll e s0) as [Hm _];
                [intros l' c' Heq; discriminate Heq|];
                pose proof (step_keeps_level e s0
                  ltac:(intros l' c' Heq; discriminate Heq)) as Hk
            end;
            rewrite Hm, xorb_nilpotent; simpl; apply IH;
            [intros Hh; apply Hs; rewrite <- Hk; exact Hh | exact Hl]).
  simpl in Hl. apply andb_true_iff in Hl. destruct Hl as [Hc Htr].
  apply Z.eqb_eq in Hc.
  change (step (Poll l c) s) with (pollBlinkingButton l c s).
  destruct (poll_reject s l c) as [Hr _]; [auto|].
  rewrite Hr, xorb_nilpotent. simpl. apply IH; [|exact Htr].
  rewrite poll_level, Hc. discriminate.
Qed.

(** X11: while the button is held down, that is while every poll reads [LOW],
    the blink flag is toggled at most once however long the hold lasts and
    whatever edges and ticks happen meanwhile. *)
Theorem hold_toggles_once (tr : list Event) (s : State) :
  held_low tr = true ->
  (toggles blinkingMode tr s <= 1)%nat.
Proof.
  unfold held_low.
  revert s. induction tr as [|e tr IH]; intros s Hl; simpl; [lia|].
  destruct e as [c|c|l c|n].
  1, 2, 4: (match goal with
            | |- context [step ?e ?s0] =>
                destruct (step_not_poll e s0) as [Hm _];
                [intros l' c' Heq; discriminate Heq|]
            end;
            rewrite Hm, xorb_nilpotent; simpl; apply IH; exact Hl).
  simpl in Hl. apply andb_true_iff in Hl. destruct Hl as [Hc Htr].
  apply Z.eqb_eq in Hc.
  rewrite held_quiet.
  - destruct (xorb _ _); simpl; lia.
  - change (step (Poll l c) s) with (pollBlinkingButton l c s).
    rewrite poll_level, Hc. discriminate.
  - exact Htr.
Qed.

Lemma hold_toggles_once_witness :
  (toggles blinkingMode
     [Poll LOW 100; Tick 150; Poll LOW 200; Poll LOW 300; Poll LOW 1000]
     (boot 0) <= 1)%nat.
Proof.
  apply hold_toggles_once. reflexivity.
Defined.

Lemma no_toggle_same_flag (f : State -> bool) (tr : list Event)
    (s : State) :
  toggles f tr s = 0%nat -> f (run tr s) = f s.
Proof.
  revert s. induction tr as [|e tr IH]; intros s H0; [reflexivity|].
  cbn [toggles run] in *.
  destruct (xorb (f s) (f (step e s))) eqn:Hx; [discriminate|].
  rewrite (IH (step e s) H0).
  destruct (f s), (f (step e s)); try reflexivity; discriminate.
Qed.

(** X12: a press whose first [LOW] poll is rejected by the debounce test is
    lost: the stored level becomes [LOW] all the same, so no later poll of
    the same hold can toggle the flag, however long the button stays
    down. *)
Theorem rejected_press_is_lost (c : Z) (tr : list Event) (s : State) :
  Word.sub c (lastBlinkingDebounceTime s) <= blinkingDebounceDelay ->
  held_low tr = true ->
  toggles blinkingMode (Poll LOW c :: tr) s = 0%nat /\
  blinkingMode (run (Poll LOW c :: tr) s) = blinkingMode s.
Proof.
  intros Hc Hl.
  destruct (poll_reject s LOW c) as [Hr _]; [auto|].
  assert (Hq : lastBlinkingButtonState (pollBlinkingButton LOW c s) <> HIGH)
    by (rewrite poll_level; discriminate).
  pose proof (held_quiet tr (pollBlinkingButton LOW c s) Hq Hl) as H0.
  assert (Ht : toggles blinkingMode (Poll LOW c :: tr) s = 0%nat).
  { cbn [toggles].
    change (step (Poll LOW c) s) with (pollBlinkingButton LOW c s).
    rewrite Hr, xorb_nilpotent. exact H0. }
  split; [exact Ht|].
  apply no_toggle_same_flag. exact Ht.
Qed.

Lemma rejected_press_is_lost_witness :
  blinkingMode
    (run [Poll LOW 30; Poll LOW 130; Tick 200; Poll LOW 5000] (boot 0))
  = false.
Proof.
  apply (proj2 (rejected_press_is_lost 30
                  [Poll LOW 130; Tick 200; Poll LOW 5000] (boot 0)
                  ltac:(vm_compute; congruence) eq_refl)).
Defined.

(** ** Bursts of edges *)

Lemma edge_times_foreign (t : EdgeTrigger) (e : Event) (tr : list Event) :
  foreign t e = true -> edge_times t (e :: tr) = edge_times t tr.
Proof.
  destruct t, e; simpl; intros H; try reflexivity; discriminate.
Qed.

Lemma edge_times_own (t : EdgeTrigger) (e : Event) (tr : list Event) :
  foreign t e = false ->
  exists c, e = edge t c /\ edge_times t (e :: tr) = c :: edge_times t tr.
Proof.
  destruct t, e as [c|c|l c|n]; simpl; intros H; try discriminate;
    exists c; split; reflexivity.
Qed.

Lemma edges_quiet (t : EdgeTrigger) (tr : list Event) (s : State) :
  forallb (fun c' => Word.sub c' (last_accepted t s)
                       <=? debounceDelayMicro - 1) (edge_times t tr) = true ->
  toggles (flag t) tr s = 0%nat.
Proof.
  revert s. induction tr as [|e tr IH]; intros s H; [reflexivity|].
  cbn [toggles].
  destruct (foreign t e) eqn:Hf.
  - destruct (step_foreign t e s Hf) as [A B].
    rewrite A, xorb_nilpotent. apply IH. rewrite B.
    rewrite (edge_times_foreign t e tr Hf) in H. exact H.
  - destruct (edge_times_own t e tr Hf) as (c & -> & Hc).
    rewrite Hc in H. cbn [forallb] in H.
    apply andb_true_iff in H. destruct H as [H1 H2].
    apply Z.leb_le in H1.
    rewrite step_edge, isr_reject by lia.
    rewrite xorb_nilpotent. apply IH. exact H2.
Qed.

(** X13: a burst of edges on one trigger in which every edge comes less than
    200 ms after every earlier one toggles the flag at most once, however
    many edges the burst has and whatever else happens meanwhile. *)
Theorem edge_burst (t : EdgeTrigger) (tr : list Event) (s : State) :
  within_window (debounceDelayMicro - 1) (edge_times t tr) = true ->
  (toggles (flag t) tr s <= 1)%nat.
Proof.
  revert s. induction tr as [|e tr IH]; intros s H; [simpl; lia|].
  cbn [toggles].
  destruct (foreign t e) eqn:Hf.
  - destruct (step_foreign t e s Hf) as [A _].
    rewrite A, xorb_nilpotent. apply IH.
    rewrite (edge_times_foreign t e tr Hf) in H. exact H.
  - destruct (edge_times_own t e tr Hf) as (c & -> & Hc).
    rewrite Hc in H. cbn [within_window] in H.
    apply andb_true_iff in H. destruct H as [H1 H2].
    rewrite step_edge.
    destruct (Z_lt_le_dec (Word.sub c (last_accepted t s))
                debounceDelayMicro) as [Hlt|Hle].
    + rewrite (isr_reject t c s Hlt), xorb_nilpotent.
      apply IH. exact H2.
    + destruct (isr_accept t c s Hle) as [_ Hla].
      rewrite edges_quiet; [destruct (xorb _ _); simpl; lia|].
      rewrite Hla. exact H1.
Qed.

Lemma edge_burst_witness :
  (toggles emergencyMode
     [EmergencyEdge 4294900000; EmergencyEdge 4294950000; Tick 5;
      ResetEdge 4294960000; EmergencyEdge 100; EmergencyEdge 132703]
     (boot 0) <= 1)%nat.
Proof.
  apply (edge_burst Emergency). reflexivity.
Defined.

(** ** The reference time of the cycle *)

Lemma step_keeps_cycleStart (e : Event) (s : State) :
  cycleStart (step e s) = cycleStart s.
Proof.
  destruct e as [c|c|l c|n]; simpl.
  - unfold emergencyISR. destruct (_ >=? _); reflexivity.
  - unfold resetISR. destruct (_ >=? _); reflexivity.
  - unfold pollBlinkingButton. destruct (_ && _); reflexivity.
  - apply (resolver_keeps_globals s n).
Qed.

(** X14: no event ever moves the reference time, so mode changes do not
    re-phase the cycle: whenever a run has brought the flags back to what
    they were, the resolver gives the outputs it would have given had the
    run not happened. *)
Theorem cycle_never_rephased (tr : list Event) (s : State) (now : Z) :
  cycleStart (run tr s) = cycleStart s /\
  (same_mode (run tr s) s ->
   outputs (updateTrafficLights now (run tr s))
     = outputs (updateTrafficLights now s)).
Proof.
  assert (Hcs : cycleStart (run tr s) = cycleStart s).
  { revert s. induction tr as [|e tr IH]; intros s; simpl; [reflexivity|].
    rewrite IH. apply step_keeps_cycleStart. }
  split; [exact Hcs|].
  intros (Hoff & Hem & Hbl). rewrite !resolver_outputs.
  rewrite Hoff, Hem, Hbl, Hcs. reflexivity.
Qed.

Lemma cycle_never_rephased_witness :
  outputs (updateTrafficLights 4000
             (run [EmergencyEdge 300000; Tick 400; Poll LOW 450;
                   Tick 500; EmergencyEdge 600000; Poll HIGH 700;
                   Poll LOW 800] (boot 100)))
  = green_only.
Proof.
  rewrite (proj2 (cycle_never_rephased
                    [EmergencyEdge 300000; Tick 400; Poll LOW 450;
                     Tick 500; EmergencyEdge 600000; Poll HIGH 700;
                     Poll LOW 800] (boot 100) 4000)).
  - reflexivity.
  - repeat split.
Defined.

(** ** One pass of loop() *)

(** X15: in a pass of loop() the poll comes after the task and writes no pin:
    the pins after the pass are those the task left (or the old ones when
    the task was not due), also when the poll of this pass toggles the
    blink flag, which shows on the pins at the next run of the task at the
    earliest.  The emergency and shutdown flags are not changed by the
    pass, and the blink flag, its timestamp and the stored level end as
    the poll alone would have left them. *)
Theorem loop_pass (task : option Z) (l c : Z) (s : State) :
  let s' := loop task l c s in
  pins s' = pins (runner_execute task s) /\
  emergencyMode s' = emergencyMode s /\
  systemOffMode s' = systemOffMode s /\
  cycleStart s' = cycleStart s /\
  blinkingMode s' = blinkingMode (pollBlinkingButton l c s) /\
  lastBlinkingDebounceTime s'
    = lastBlinkingDebounceTime (pollBlinkingButton l c s) /\
  lastBlinkingButtonState s' = l.
Proof.
  cbv zeta. unfold loop, then_.
  assert (Hg : same_globals s (runner_execute task s)).
  { destruct task as [n|]; simpl.
    - apply resolver_keeps_globals.
    - unfold skip, same_globals. repeat split. }
  destruct Hg as (A & B & C & _ & _ & D & E & F).
  set (s1 := runner_execute task s) in *.
  unfold pollBlinkingButton. rewrite D, E.
  destruct (_ && _); simpl; rewrite ?A, ?B, ?C, ?D, ?F;
    repeat split; reflexivity.
Qed.

(** ** Debounce across a wrap of the clock *)

(** X16: the edge debounce measures real elapsed time also across a wrap of
    the microsecond counter: an edge [d] microseconds after the stored
    timestamp, [d] below 2^32, is accepted exactly when [d] is at least
    200000, whether or not the counter wrapped in between. *)
Theorem edge_debounce_wrap_safe (t : EdgeTrigger) (s : State) (d : Z) :
  0 <= d < Word.modulus ->
  let c := Word.wrap (last_accepted t s + d) in
  flag t (isr t c s) = negb (flag t s) <-> debounceDelayMicro <= d.
Proof.
  intros Hd c. subst c.
  rewrite isr_toggles_iff, wrap_sub_offset, wrap_small by exact Hd.
  reflexivity.
Qed.

Lemma edge_debounce_wrap_safe_witness :
  let s := emergencyISR 4294900000 (boot 0) in
  emergencyMode s = true /\
  emergencyMode (emergencyISR 132704 s) = false.
Proof.
  cbv zeta. split; [reflexivity|].
  apply (proj2 (edge_debounce_wrap_safe Emergency
                  (emergencyISR 4294900000 (boot 0)) 200000
                  ltac:(vm_compute; split; congruence))).
  vm_compute; congruence.
Defined.

(** X17: the same for the polled button and the millisecond counter: a
    high-to-low transition [d] ms after the stored timestamp is accepted
    exactly when [d] exceeds 50. *)
Theorem poll_debounce_wrap_safe (s : State) (d : Z) :
  0 <= d < Word.modulus ->
  lastBlinkingButtonState s = HIGH ->
  let c := Word.wrap (lastBlinkingDebounceTime s + d) in
  blinkingMode (pollBlinkingButton LOW c s) = negb (blinkingMode s) <->
  blinkingDebounceDelay < d.
Proof.
  intros Hd Hh c. subst c.
  rewrite poll_toggles_iff, wrap_sub_offset, wrap_small by exact Hd.
  tauto.
Qed.

Lemma poll_debounce_wrap_safe_witness :
  let s := pollBlinkingButton HIGH 4294967290
             (pollBlinkingButton LOW 4294967280 (boot 0)) in
  blinkingMode s = true /\
  blinkingMode (pollBlinkingButton LOW 35 s) = false.
Proof.
  cbv zeta. split; [reflexivity|].
  apply (proj2 (poll_debounce_wrap_safe
                  (pollBlinkingButton HIGH 4294967290
                     (pollBlinkingButton LOW 4294967280 (boot 0))) 51
                  ltac:(vm_compute; split; congruence) eq_refl)).
  vm_compute; reflexivity.
Defined.

(** ** The tick of the triple flash *)

(** X18: in the flash window neither the unsigned subtraction nor the
    narrowing to [int] loses anything: the tick is the quotient of the
    offset into the window by 100 and lies between 0 and 9, so ticks 7, 8
    and 9 (the last 300 ms of the window) exist and keep the output off. *)
Theorem tick_in_range (s : State) (now : Z) :
  4500 <= cycle_elapsed now s < 5500 ->
  let e := cycle_elapsed now s in
  let tick := Word.to_int (Word.div (Word.sub e 4500) 100) in
  tick = (e - 4500) / 100 /\ 0 <= tick <= 9 /\
  (5200 <= e -> normal_mode s ->
   outputs (updateTrafficLights now s) = all_off).
Proof.
  intros Hw e tick. subst tick. fold e in Hw.
  rewrite (tick_value e Hw).
  assert (Hq : 0 <= (e - 4500) / 100 < 10).
  { split; [apply Z.div_pos; lia | apply Z.div_lt_upper_bound; lia]. }
  split; [reflexivity|]. split; [lia|].
  intros H52 Hn. rewrite (resolver_normal s now Hn). cbv zeta. fold e.
  destruct (e <? 2000) eqn:E1; [lia|].
  destruct (e <? 2500) eqn:E2; [lia|].
  destruct (e <? 4500) eqn:E3; [lia|].
  destruct (e <? 5500) eqn:E4; [|lia].
  unfold triple_flash.
  destruct (e <? 4600) eqn:A2; [lia|].
  destruct (e <? 4900) eqn:A4; [lia|].
  destruct (e <? 5200) eqn:A6; [lia|].
  rewrite !andb_false_r. reflexivity.
Qed.

Lemma tick_in_range_witness :
  outputs (updateTrafficLights 6200 (boot 1000)) = all_off.
Proof.
  apply (proj2 (proj2 (tick_in_range (boot 1000) 6200
                         ltac:(vm_compute; split; congruence)))).
  - vm_compute; congruence.
  - repeat split.
Defined.
